(** * scm-backend: the bootstrap layer [app/main.py]

    A shallow embedding of the composition root of the supply-chain
    API server: module import (configuration snapshot, application
    construction, CORS policy, static mount, route registration), the
    lifespan hook, the three top-level endpoints and the global
    exception handler.

    Python objects that the module mutates ([app.state], the process
    environment) are threaded explicitly through a small state-and-exception
    monad; the two collaborators that live outside this file
    ([get_config], [init_database]) are section variables. *)

From stdpp Require Import gmap strings list.
From Stdlib Require Import ZArith NArith Ascii String.

Local Open Scope string_scope.
Local Open Scope list_scope.
Local Open Scope Z_scope.

Set Warnings "-register-all".

(** ** Python runtime: exceptions *)

Module Py.

(** The exception classes that matter for [except Exception]: the four
    built-ins that derive from [BaseException] only, some ordinary
    built-ins, and user classes given by their base. *)
Inductive ExcClass : Type :=
| BaseException
| SystemExit
| KeyboardInterrupt
| GeneratorExit
| CancelledError
| Exception
| RuntimeError
| ValueError
| KeyError
| AttributeError
| OSError
| HTTPException
| Subclass (name : string) (base : ExcClass).

Record Exc : Type := mkExc { exc_class : ExcClass; exc_text : string }.

(** [issubclass(c, Exception)] *)
Fixpoint issubclass_Exception (c : ExcClass) : bool :=
  match c with
  | BaseException | SystemExit | KeyboardInterrupt
  | GeneratorExit | CancelledError => false
  | Exception | RuntimeError | ValueError | KeyError
  | AttributeError | OSError | HTTPException => true
  | Subclass _ base => issubclass_Exception base
  end.

(** [isinstance(e, Exception)] *)
Definition isinstance_Exception (e : Exc) : bool :=
  issubclass_Exception (exc_class e).

(** Truthiness of an [Optional[str]]: [bool(None)] and [bool('')] are
    [False], every other string is [True]. *)
Definition bool_ (v : option string) : bool :=
  match v with
  | None => false
  | Some EmptyString => false
  | Some (String _ _) => true
  end.

End Py.

(** ** Python runtime: [os.path], [os.getenv], [datetime] *)

Module Os.

Inductive Node : Type := RegularFile | Directory.

Definition sep : ascii := "/"%char.

Definition startswith_sep (s : string) : bool :=
  match s with
  | String c _ => bool_decide (c = sep)
  | EmptyString => false
  end.

Fixpoint endswith_sep (s : string) : bool :=
  match s with
  | EmptyString => false
  | String c EmptyString => bool_decide (c = sep)
  | String _ rest => endswith_sep rest
  end.

(** [posixpath.join(a, b)] *)
Definition join (a b : string) : string :=
  if startswith_sep b then b
  else match a with
       | EmptyString => b
       | _ => if endswith_sep a then a +:+ b
              else a +:+ String sep b
       end.

(** Characters of a string, last one first. *)
Fixpoint rev_chars (s : string) (acc : list ascii) : list ascii :=
  match s with
  | EmptyString => acc
  | String c rest => rev_chars rest (c :: acc)
  end.

Fixpoint of_rev_chars (l : list ascii) (acc : string) : string :=
  match l with
  | [] => acc
  | c :: rest => of_rev_chars rest (String c acc)
  end.

(** Drop the part after the last separator: what is left is [p[:i]]
    with [i = p.rfind('/') + 1], reversed. *)
Fixpoint drop_tail_component (l : list ascii) : list ascii :=
  match l with
  | [] => []
  | c :: rest => if bool_decide (c = sep) then l
                 else drop_tail_component rest
  end.

Fixpoint lstrip_sep (l : list ascii) : list ascii :=
  match l with
  | c :: rest => if bool_decide (c = sep) then lstrip_sep rest else l
  | [] => []
  end.

(** [posixpath.dirname(p)]: the head up to the last separator, with
    trailing separators removed unless the head is made of separators
    only. *)
Definition dirname (p : string) : string :=
  let head := drop_tail_component (rev_chars p []) in
  match lstrip_sep head with
  | [] => of_rev_chars head EmptyString
  | stripped => of_rev_chars stripped EmptyString
  end.

(** [os.path.exists(p)]: any kind of node will do. *)
Definition exists_ (fs : gmap string Node) (p : string) : bool :=
  match fs !! p with
  | Some _ => true
  | None => false
  end.

(** [os.path.isdir(p)] *)
Definition isdir (fs : gmap string Node) (p : string) : bool :=
  match fs !! p with
  | Some Directory => true
  | _ => false
  end.

(** [os.getenv(key, default)] *)
Definition getenv (environ : gmap string string)
           (key default_ : string) : string :=
  match environ !! key with
  | Some v => v
  | None => default_
  end.

End Os.

Module Datetime.

Record datetime : Type := mkDatetime {
  year : N; month : N; day : N;
  hour : N; minute : N; second : N; microsecond : N
}.

Definition digit (n : N) : ascii := ascii_of_N (48 + n mod 10)%N.

(** The [width] low decimal digits of [n], zero padded: [%0<width>d]
    for the values a datetime field can hold. *)
Fixpoint zfill (width : nat) (n : N) : string :=
  match width with
  | O => EmptyString
  | S w => zfill w (n / 10)%N +:+ String (digit n) EmptyString
  end.

(** [datetime.isoformat()] of a naive datetime. *)
Definition isoformat (d : datetime) : string :=
  zfill 4 (year d) +:+ "-" +:+ zfill 2 (month d) +:+ "-" +:+ zfill 2 (day d)
  +:+ "T" +:+ zfill 2 (hour d) +:+ ":" +:+ zfill 2 (minute d)
  +:+ ":" +:+ zfill 2 (second d)
  +:+ (if (microsecond d =? 0)%N then EmptyString
       else "." +:+ zfill 6 (microsecond d)).

End Datetime.

(** ** JSON values, requests and responses *)

Inductive JSON : Type :=
| JNull
| JBool (b : bool)
| JStr (s : string)
| JObj (items : list (string * JSON)).

(** Keys of a dict, in insertion order. *)
Definition keys (j : JSON) : list string :=
  match j with
  | JObj items => items.*1
  | _ => []
  end.

Fixpoint assoc (k : string) (items : list (string * JSON)) : option JSON :=
  match items with
  | [] => None
  | (k', v) :: rest => if bool_decide (k' = k) then Some v else assoc k rest
  end.

(** [d[k]] for a dict [d]. *)
Definition item (k : string) (j : JSON) : option JSON :=
  match j with
  | JObj items => assoc k items
  | _ => None
  end.

Record Request : Type := mkRequest { method : string; url_path : string }.

Inductive Response : Type :=
| JSONResponse (status_code : Z) (content : JSON)
| FileResponse (path : string) (media_type : string).

(** What a path operation function hands back to FastAPI: a plain dict
    or a ready-made response object. *)
Inductive Returned : Type :=
| Dict (d : JSON)
| Resp (r : Response).

(** FastAPI sends a returned dict as a JSON response with the route's
    default status, 200, and a returned response object as it is. *)
Definition serialize_response (r : Returned) : Response :=
  match r with
  | Dict d => JSONResponse 200 d
  | Resp r => r
  end.

(** What reaches the client: a status and a body. *)
Inductive Body : Type :=
| JSONBody (content : JSON)
| FileBody (path : string) (media_type : string).

Record Sent : Type := mkSent { sent_status : Z; sent_body : Body }.

(** ** The world outside the module *)

Record World : Type := mkWorld {
  environ : gmap string string;      (* os.environ *)
  dotenv : gmap string string;       (* the bindings of the .env file *)
  fs : gmap string Os.Node;          (* the file system *)
  now : Datetime.datetime            (* the wall clock *)
}.

(** Modelled from the spec: [app.utils.config] is not part of the sources
    at hand.  Section 3 describes the configuration as an immutable
    snapshot holding "an optional AI-service credential", and section 4.1
    says that absence "is represented as an empty/falsy credential". *)
Record Config : Type := mkConfig { gemini_api_key : option string }.

(** ** The application object *)

Record CORSMiddleware : Type := mkCORS {
  allow_origins : list string;
  allow_credentials : bool;
  allow_methods : list string;
  allow_headers : list string
}.

Inductive Endpoint : Type :=
| EFavicon | ERoot | EHealthCheck
(* the documentation endpoints FastAPI brings along *)
| EOpenAPI | ESwaggerUI | ESwaggerUIRedirect | EReDoc.

(** The five route groups of [app.routes]; opaque to this module. *)
Inductive Router : Type := demand | inventory | logistics | scenarios | reports.

Inductive Route : Type :=
| Mount (path : string) (directory : string) (name : string)
| APIRoute (http_method : string) (path : string) (endpoint : Endpoint)
| PlainRoute (path : string) (endpoint : Endpoint)
| IncludeRouter (router : Router) (prefix : string) (tags : list string).

Inductive ExceptionHandler : Type :=
| HGlobalExceptionHandler
(* the handlers FastAPI installs by default *)
| HHttpExceptionHandler
| HRequestValidationExceptionHandler
| HWebSocketRequestValidationExceptionHandler.

Record FastAPI : Type := mkFastAPI {
  title : string;
  description : string;
  version : string;
  docs_url : string;
  redoc_url : string;
  state : gmap string bool;          (* app.state: attribute name to value *)
  user_middleware : list CORSMiddleware;
  routes : list Route;
  exception_handlers : list (Py.ExcClass * ExceptionHandler)
}.

(** [app.state.<name> = b] *)
Definition set_state (a : FastAPI) (name : string) (b : bool) : FastAPI :=
  mkFastAPI (title a) (description a) (version a) (docs_url a) (redoc_url a)
            (<[name := b]> (state a)) (user_middleware a) (routes a)
            (exception_handlers a).

Definition add_middleware (a : FastAPI) (m : CORSMiddleware) : FastAPI :=
  mkFastAPI (title a) (description a) (version a) (docs_url a) (redoc_url a)
            (state a) (m :: user_middleware a) (routes a)
            (exception_handlers a).

Definition add_route (a : FastAPI) (r : Route) : FastAPI :=
  mkFastAPI (title a) (description a) (version a) (docs_url a) (redoc_url a)
            (state a) (user_middleware a) (routes a ++ [r])
            (exception_handlers a).

Definition exception_handler (a : FastAPI) (c : Py.ExcClass)
           (h : ExceptionHandler) : FastAPI :=
  mkFastAPI (title a) (description a) (version a) (docs_url a) (redoc_url a)
            (state a) (user_middleware a) (routes a)
            ((c, h) :: exception_handlers a).

(** [FastAPI(title=..., description=..., version=..., docs_url=...,
    redoc_url=...)]: the constructor itself registers the OpenAPI schema
    at /openapi.json, the Swagger UI at [docs_url] with its OAuth2
    redirect, and ReDoc at [redoc_url], and installs its default
    exception handlers; [app.state] starts empty. *)
Definition new_FastAPI (title description version docs_url redoc_url : string)
  : FastAPI :=
  mkFastAPI title description version docs_url redoc_url ∅ []
    [PlainRoute "/openapi.json" EOpenAPI;
     PlainRoute docs_url ESwaggerUI;
     PlainRoute "/docs/oauth2-redirect" ESwaggerUIRedirect;
     PlainRoute redoc_url EReDoc]
    [(Py.HTTPException, HHttpExceptionHandler);
     (Py.Subclass "RequestValidationError"
        (Py.Subclass "ValidationException" Py.Exception),
      HRequestValidationExceptionHandler);
     (Py.Subclass "WebSocketRequestValidationError"
        (Py.Subclass "ValidationException" Py.Exception),
      HWebSocketRequestValidationExceptionHandler)].

(** The module globals that the functions of [main.py] refer to. *)
Record Globals : Type := mkGlobals {
  config : Config;
  app : FastAPI;
  static_dir : string
}.

(** ** Effects

    An instrumented run records, in program order, the calls to the two
    collaborators, what is printed, and every assignment to
    [app.state.gemini_available]. *)

Inductive Event : Type :=
| CallInitDatabase
| CallGetConfig
| Print (line : string)
| SetGeminiAvailable (b : bool).

Record St : Type := mkSt {
  glob : Globals;
  world : World;
  trace : list Event
}.

Inductive Outcome (A : Type) : Type :=
| Ok (a : A)
| Raise (e : Py.Exc).

Arguments Ok {A} a.
Arguments Raise {A} e.

(** Sending a response. A JSON response goes out as it is. Starlette's
    [FileResponse] looks at the path first: it sends the file with status
    200 when the path is a regular file and raises [RuntimeError] when
    the path is missing or is not a regular file. *)
Definition send (fs : gmap string Os.Node) (r : Response) : Outcome Sent :=
  match r with
  | JSONResponse c content => Ok (mkSent c (JSONBody content))
  | FileResponse path media_type =>
      match fs !! path with
      | Some Os.RegularFile => Ok (mkSent 200 (FileBody path media_type))
      | Some Os.Directory =>
          Raise (Py.mkExc Py.RuntimeError
                   ("File at path " +:+ path +:+ " is not a file."))
      | None =>
          Raise (Py.mkExc Py.RuntimeError
                   ("File at path " +:+ path +:+ " does not exist."))
      end
  end.

(** A computation over a state [S] that returns or raises; the state
    reached when it raises is kept, as Python keeps side effects. *)
Definition M (S A : Type) : Type := S -> Outcome A * S.

#[global] Instance M_ret {S} : MRet (M S) := fun A a s => (Ok a, s).

#[global] Instance M_bind {S} : MBind (M S) := fun A B f m s =>
  match m s with
  | (Ok a, s') => f a s'
  | (Raise e, s') => (Raise e, s')
  end.

Definition get_state {S} : M S S := fun s => (Ok s, s).

Definition raise {S A} (e : Py.Exc) : M S A := fun s => (Raise e, s).

(** [try: body  except Exception: handler] *)
Definition try_except_Exception {S A} (body handler : M S A) : M S A :=
  fun s =>
    match body s with
    | (Ok a, s') => (Ok a, s')
    | (Raise e, s') =>
        if Py.isinstance_Exception e then handler s' else (Raise e, s')
    end.

(** Call a collaborator: it sees and may change the world only. *)
Definition call {A} (ev : Event) (f : World -> Outcome A * World) : M St A :=
  fun s =>
    let '(r, w) := f (world s) in
    (r, mkSt (glob s) w (trace s ++ [ev])).

(** [print(line)]; writing to standard output is taken to succeed. *)
Definition print (line : string) : M St unit :=
  fun s => (Ok tt, mkSt (glob s) (world s) (trace s ++ [Print line])).

(** [app.state.gemini_available = b] *)
Definition set_gemini_available (b : bool) : M St unit :=
  fun s =>
    let g := glob s in
    (Ok tt, mkSt (mkGlobals (config g)
                            (set_state (app g) "gemini_available" b)
                            (static_dir g))
                 (world s) (trace s ++ [SetGeminiAvailable b])).

(** [app.state.gemini_available], read: an attribute that was never
    assigned raises [AttributeError]. *)
Definition get_gemini_available : M St bool :=
  fun s =>
    match state (app (glob s)) !! "gemini_available" with
    | Some b => (Ok b, s)
    | None =>
        (Raise (Py.mkExc Py.AttributeError
                  "'State' object has no attribute 'gemini_available'"), s)
    end.

(** [load_dotenv()]: bindings of the .env file enter the environment,
    variables that are already set win. *)
Definition load_dotenv : M World unit :=
  fun w => (Ok tt, mkWorld (environ w ∪ dotenv w) (dotenv w) (fs w) (now w)).

(** ** The module *)

Section Main.

(** [app.utils.config.get_config] and [app.utils.db.init_database]: any
    behaviour whatever, over the world. *)
Variable get_config : World -> Outcome Config * World.
Variable init_database : World -> Outcome unit * World.

(** The path [main.py] is loaded from. *)
Variable __file__ : string.

(** Lines 43-128: the application object with its middleware, routes
    and exception handler, built from the environment and the file
    system as they are at import time. *)
Definition create_app (w : World) : FastAPI * string :=
  let app := new_FastAPI "AI Supply Chain Management Platform"
               "AI-powered supply chain management for Indian retail businesses"
               "1.0.0" "/docs" "/redoc" in
  let app := set_state app "gemini_available" false in
  let app := add_middleware app
               (mkCORS [Os.getenv (environ w) "CLIENT_URL" "*"] true ["*"] ["*"]) in
  let static_dir := Os.join (Os.dirname __file__) "static" in
  let app := if Os.isdir (fs w) static_dir
             then add_route app (Mount "/static" static_dir "static")
             else app in
  let app := add_route app (APIRoute "GET" "/favicon.ico" EFavicon) in
  let app := add_route app (IncludeRouter demand "/api/demand" ["demand"]) in
  let app := add_route app (IncludeRouter inventory "/api/inventory" ["inventory"]) in
  let app := add_route app (IncludeRouter logistics "/api/logistics" ["logistics"]) in
  let app := add_route app (IncludeRouter scenarios "/api/scenarios" ["scenarios"]) in
  let app := add_route app (IncludeRouter reports "/api/reports" ["reports"]) in
  let app := add_route app (APIRoute "GET" "/" ERoot) in
  let app := add_route app (APIRoute "GET" "/health" EHealthCheck) in
  let app := exception_handler app Py.Exception HGlobalExceptionHandler in
  (app, static_dir).

(** Importing [app.main]. *)
Definition main : M World Globals :=
  load_dotenv;;
  config ← get_config;
  w ← get_state;
  let '(app, static_dir) := create_app w in
  mret (mkGlobals config app static_dir).

(** [lifespan(app)]: runs up to the [yield] and hands back what is left
    to run at shutdown. An exception of a collaborator leaves the hook as
    it is; the collaborators are taken not to raise [StopIteration] or
    [StopAsyncIteration], which an async generator would turn into
    [RuntimeError]. *)
Definition lifespan : M St (M St unit) :=
  call CallInitDatabase init_database;;
  print "✅ Database initialized";;
  try_except_Exception
    (_cfg ← call CallGetConfig get_config;
     set_gemini_available (Py.bool_ (gemini_api_key _cfg)))
    (set_gemini_available false);;
  mret (print "🛑 Shutting down gracefully").

Definition favicon : M St Returned :=
  s ← get_state;
  let path := Os.join (static_dir (glob s)) "favicon.svg" in
  if Os.exists_ (fs (world s)) path
  then mret (Resp (FileResponse path "image/svg+xml"))
  else mret (Dict (JObj [("detail", JStr "favicon not found")])).

Definition root : M St Returned :=
  mret (Dict (JObj [
    ("name", JStr "AI Supply Chain Management Platform");
    ("version", JStr "1.0.0");
    ("description",
      JStr "AI-powered supply chain management for Indian retail businesses");
    ("ai_model", JStr "Gemini 2.5 Pro");
    ("market_focus", JStr "Indian Retail MSME");
    ("endpoints", JObj [
      ("demand_forecasting", JStr "/api/demand/forecast");
      ("inventory_management", JStr "/api/inventory/");
      ("logistics_tracking", JStr "/api/logistics/shipments");
      ("scenario_analysis", JStr "/api/scenarios/analyze");
      ("reports", JStr "/api/reports/")])])).

Definition health_check : M St Returned :=
  s ← get_state;
  gemini_available ← get_gemini_available;
  mret (Dict (JObj [
    ("status", JStr "healthy");
    ("timestamp", JStr (Datetime.isoformat (now (world s))));
    ("version", JStr "1.0.0");
    ("ai_status",
      JStr (if gemini_available : bool then "operational" else "unavailable"));
    ("database", JStr "connected")])).

Definition global_exception_handler (request : Request) (exc : Py.Exc)
  : M St Returned :=
  mret (Resp (JSONResponse 500 (JObj [
    ("success", JBool false);
    ("error", JStr "Internal server error");
    ("message", JStr "Something went wrong. Please try again.")]))).

(** *** Serving

    The operations of this layer that a request can reach. *)
Inductive Operation : Type :=
| GetRoot
| GetHealth
| GetFavicon
| HandleException (request : Request) (exc : Py.Exc).

Definition perform (op : Operation) : M St Returned :=
  match op with
  | GetRoot => root
  | GetHealth => health_check
  | GetFavicon => favicon
  | HandleException request exc => global_exception_handler request exc
  end.

(** Between two requests anything may happen to the world: the clock
    advances, files and environment variables come and go. *)
Inductive Step : Type :=
| Handle (op : Operation)
| Outside (change : World -> World).

Definition attempt {S A} (m : M S A) : M S (Outcome A) :=
  fun s => let '(r, s') := m s in (Ok r, s').

Definition outside (change : World -> World) : M St unit :=
  fun s => (Ok tt, mkSt (glob s) (change (world s)) (trace s)).

Fixpoint serve (steps : list Step) : M St (list (Operation * Outcome Returned)) :=
  match steps with
  | [] => mret []
  | Handle op :: rest =>
      r ← attempt (perform op);
      log ← serve rest;
      mret ((op, r) :: log)
  | Outside change :: rest =>
      outside change;;
      serve rest
  end.

(** The server side of the lifespan protocol (section 5 of the spec):
    the startup half runs to completion before the first request is
    dispatched, the shutdown half after the last one; a startup that
    raises serves nothing. *)
Definition run_server (steps : list Step)
  : M St (list (Operation * Outcome Returned)) :=
  shutdown ← lifespan;
  log ← serve steps;
  shutdown;;
  mret log.

End Main.

(** ** Derived notions used in the statements *)

(** How often [app.state.gemini_available] is assigned in a trace. *)
Fixpoint writes (t : list Event) : nat :=
  match t with
  | [] => O
  | SetGeminiAvailable _ :: rest => S (writes rest)
  | _ :: rest => writes rest
  end.

Definition is_mount (r : Route) : bool :=
  match r with
  | Mount _ _ _ => true
  | _ => false
  end.

(** The value of [app.state.gemini_available], if it was ever assigned. *)
Definition flag (s : St) : option bool :=
  state (app (glob s)) !! "gemini_available".

(** The same state with another import-time snapshot. *)
Definition with_config (c : Config) (s : St) : St :=
  mkSt (mkGlobals c (app (glob s)) (static_dir (glob s))) (world s) (trace s).

(** The state the startup half of [lifespan] ends in once the flag has
    been assigned [b], the collaborators having left the world at [w]. *)
Definition started (s : St) (w : World) (b : bool) : St :=
  mkSt (mkGlobals (config (glob s))
                  (set_state (app (glob s)) "gemini_available" b)
                  (static_dir (glob s)))
       w
       (trace s ++ [CallInitDatabase; Print "✅ Database initialized";
                    CallGetConfig; SetGeminiAvailable b]).

(** The world once [load_dotenv()] has run. *)
Definition loaded (w : World) : World :=
  mkWorld (environ w ∪ dotenv w) (dotenv w) (fs w) (now w).

(** A computation that never reads the import-time snapshot: run with
    another snapshot it returns the same and ends in the same state, the
    snapshot apart. *)
Definition blind {A} (m : M St A) : Prop :=
  forall c s, m (with_config c s) = (let '(r, s') := m s in (r, with_config c s')).

(** Everything in the module globals that is not [app.state]. *)
Definition wiring (s : St) :=
  (config (glob s), static_dir (glob s), user_middleware (app (glob s)),
   routes (app (glob s)), exception_handlers (app (glob s))).

(** The [ai_status] string that corresponds to a flag value. *)
Definition ai_status_of (b : bool) : string :=
  if b then "operational" else "unavailable".

(** ** Sample worlds and collaborators *)

Module Sample.

Definition file : string := "/srv/scm/app/main.py".

Definition clock : Datetime.datetime :=
  Datetime.mkDatetime 2025 3 9 7 5 0 1234.

(** A deployment with a static directory, a favicon and a client URL. *)
Definition deployed : World :=
  mkWorld {[ "CLIENT_URL" := "https://scm.example" ]} ∅
          (<["/srv/scm/app/static" := Os.Directory]>
             {[ "/srv/scm/app/static/favicon.svg" := Os.RegularFile ]})
          clock.

(** A deployment in which static/favicon.svg is a directory. *)
Definition favicon_directory : World :=
  mkWorld ∅ ∅
          (<["/srv/scm/app/static" := Os.Directory]>
             {[ "/srv/scm/app/static/favicon.svg" := Os.Directory ]})
          clock.

(** A bare checkout: nothing set, nothing on disk. *)
Definition bare : World := mkWorld ∅ ∅ ∅ clock.

Definition config_with_key : World -> Outcome Config * World :=
  fun w => (Ok (mkConfig (Some "AIza-sample")), w).

Definition config_without_key : World -> Outcome Config * World :=
  fun w => (Ok (mkConfig None), w).

Definition config_failing (e : Py.Exc) : World -> Outcome Config * World :=
  fun w => (Raise e, w).

Definition database_ready : World -> Outcome unit * World :=
  fun w => (Ok tt, w).

Definition database_failing (e : Py.Exc) : World -> Outcome unit * World :=
  fun w => (Raise e, w).

Definition malformed : Py.Exc :=
  Py.mkExc Py.ValueError "GEMINI_API_KEY is malformed".

(** What a loader that gives up through [sys.exit] raises. *)
Definition exit_requested : Py.Exc :=
  Py.mkExc Py.SystemExit "GEMINI_API_KEY is required".

Definition locked : Py.Exc :=
  Py.mkExc Py.OSError "database is locked".

(** The state right after a successful import on [w]. *)
Definition imported (w : World) : St :=
  let '(a, d) := create_app file w in
  mkSt (mkGlobals (mkConfig None) a d) w [].

(** A checkout whose only setting is a CLIENT_URL line in the .env file. *)
Definition dotenv_only : World :=
  mkWorld ∅ {[ "CLIENT_URL" := "https://shop.example" ]} ∅ clock.

End Sample.

(** ** Derived notions for the route table and the path of the module *)

(** The request paths a registration can serve: a route its own path,
    a mount what lies below its path, a route group the paths that
    extend its prefix. *)
Inductive Pattern : Type :=
| Exact (path : string)
| Under (prefix : string).

Definition pattern (r : Route) : Pattern :=
  match r with
  | Mount path _ _ => Under (path +:+ "/")
  | APIRoute _ path _ => Exact path
  | PlainRoute path _ => Exact path
  | IncludeRouter _ prefix _ => Under prefix
  end.

Definition claims (r : Route) (p : string) : bool :=
  match pattern r with
  | Exact q => String.eqb q p
  | Under q => String.prefix q p
  end.

(** Two patterns that some path can match both. *)
Definition overlap (a b : Pattern) : bool :=
  match a, b with
  | Exact p, Exact q => String.eqb p q
  | Exact p, Under q => String.prefix q p
  | Under p, Exact q => String.prefix p q
  | Under p, Under q => String.prefix p q || String.prefix q p
  end.

Fixpoint separated (l : list Route) : bool :=
  match l with
  | [] => true
  | r :: rest =>
      forallb (fun r' => negb (overlap (pattern r) (pattern r'))) rest
      && separated rest
  end.

(** The prefixes the route groups are registered under. *)
Definition router_prefixes (a : FastAPI) : list string :=
  flat_map (fun r => match r with
                     | IncludeRouter _ prefix _ => [prefix]
                     | _ => []
                     end) (routes a).

(** The same state with [app.state.gemini_available] holding [b]. *)
Definition with_flag (b : bool) (s : St) : St :=
  mkSt (mkGlobals (config (glob s))
                  (set_state (app (glob s)) "gemini_available" b)
                  (static_dir (glob s)))
       (world s) (trace s).

(** A file name: no separator in it. *)
Fixpoint no_sep (s : string) : bool :=
  match s with
  | EmptyString => true
  | String c rest => negb (bool_decide (c = Os.sep)) && no_sep rest
  end.


(** * Properties *)

(** ** The Python runtime on sample inputs *)

Example dirname_main : Os.dirname "/srv/scm/app/main.py" = "/srv/scm/app".
Proof. reflexivity. Qed.

Example dirname_root : Os.dirname "/main.py" = "/".
Proof. reflexivity. Qed.

Example dirname_rel : Os.dirname "main.py" = EmptyString.
Proof. reflexivity. Qed.

Example join_static : Os.join "/srv/scm/app" "static" = "/srv/scm/app/static".
Proof. reflexivity. Qed.

Example iso_example :
  Datetime.isoformat (Datetime.mkDatetime 2025 3 9 7 5 0 1234)
  = "2025-03-09T07:05:00.001234".
Proof. reflexivity. Qed.

(** ** Frame lemmas: what each piece of the module leaves alone *)

Ltac run_M :=
  unfold mbind, M_bind, mret, M_ret, get_state, call, print, outside, attempt,
    try_except_Exception, set_gemini_available, get_gemini_available; simpl.

Lemma writes_app (t u : list Event) : writes (t ++ u) = (writes t + writes u)%nat.
Proof.
  induction t as [|ev t IH]; simpl; [done|].
  destruct ev; simpl; rewrite IH; done.
Qed.

Lemma bool_nonempty (v : option string) :
  Py.bool_ v = true <-> exists k, v = Some k /\ k <> EmptyString.
Proof.
  split.
  - destruct v as [[|c k]|]; simpl; try discriminate.
    intros _. exists (String c k). split; [done | discriminate].
  - intros (k & -> & Hk). destruct k; [congruence | done].
Qed.

(** A request handler of this layer leaves the state as it found it: no
    global, no file, no trace entry is touched. *)
Lemma perform_pure (op : Operation) (s : St) :
  exists r, perform op s = (r, s).
Proof.
  destruct op; simpl; unfold root, health_check, favicon, global_exception_handler;
    run_M; try (eexists; reflexivity).
  - destruct (state (app (glob s)) !! "gemini_available"); eexists; reflexivity.
  - destruct (Os.exists_ _ _); eexists; reflexivity.
Qed.

(** With the flag assigned, [/health] reports it. *)
Lemma health_check_run (s : St) (b : bool) :
  flag s = Some b ->
  health_check s =
    (Ok (Dict (JObj [
       ("status", JStr "healthy");
       ("timestamp", JStr (Datetime.isoformat (now (world s))));
       ("version", JStr "1.0.0");
       ("ai_status", JStr (ai_status_of b));
       ("database", JStr "connected")])), s).
Proof.
  unfold flag, health_check. run_M. intros ->. by destruct b.
Qed.

Lemma serve_frame (steps : list Step) (s : St) :
  exists log s', serve steps s = (Ok log, s')
    /\ glob s' = glob s /\ trace s' = trace s.
Proof.
  revert s. induction steps as [|[op|change] rest IH]; intros s; simpl.
  - by exists [], s.
  - destruct (perform_pure op s) as [r Hr].
    destruct (IH s) as (log & s' & Hrun & Hg & Ht).
    exists ((op, r) :: log), s'. run_M. rewrite Hr. simpl. rewrite Hrun. done.
  - destruct (IH (mkSt (glob s) (change (world s)) (trace s)))
      as (log & s' & Hrun & Hg & Ht).
    exists log, s'. run_M. rewrite Hrun. done.
Qed.

(** Serving assigns nothing, and each [/health] call along the way
    reports the flag as serving found it. *)
Lemma serve_health (steps : list Step) (s : St) (b : bool) :
  flag s = Some b ->
  exists log s', serve steps s = (Ok log, s')
    /\ glob s' = glob s /\ trace s' = trace s
    /\ Forall (fun entry : Operation * Outcome Returned =>
                 entry.1 = GetHealth ->
                 exists d, entry.2 = Ok (Dict d)
                           /\ item "ai_status" d = Some (JStr (ai_status_of b)))
              log.
Proof.
  revert s. induction steps as [|[op|change] rest IH]; intros s Hflag; simpl.
  - exists [], s. by repeat split.
  - destruct (perform_pure op s) as [r Hr].
    destruct (IH s Hflag) as (log & s' & Hrun & Hg & Ht & Hlog).
    exists ((op, r) :: log), s'.
    split; [run_M; rewrite Hr; simpl; by rewrite Hrun|].
    split; [done|]. split; [done|].
    constructor; [|done]. simpl. intros ->.
    simpl in Hr. rewrite (health_check_run s b Hflag) in Hr.
    injection Hr as <-. eexists. split; reflexivity.
  - destruct (IH (mkSt (glob s) (change (world s)) (trace s)) Hflag)
      as (log & s' & Hrun & Hg & Ht & Hlog).
    exists log, s'. split; [run_M; by rewrite Hrun|]. by repeat split.
Qed.

Section Startup.

Variable get_config : World -> Outcome Config * World.
Variable init_database : World -> Outcome unit * World.

(** Every path through [lifespan], up to its [yield]. *)
Lemma lifespan_run (s : St) :
  lifespan get_config init_database s =
    match init_database (world s) with
    | (Raise e, w1) =>
        (Raise e, mkSt (glob s) w1 (trace s ++ [CallInitDatabase]))
    | (Ok _, w1) =>
        match get_config w1 with
        | (Ok cfg, w2) =>
            (Ok (print "🛑 Shutting down gracefully"),
             started s w2 (Py.bool_ (gemini_api_key cfg)))
        | (Raise e, w2) =>
            if Py.isinstance_Exception e
            then (Ok (print "🛑 Shutting down gracefully"), started s w2 false)
            else (Raise e,
                  mkSt (glob s) w2
                       (trace s ++ [CallInitDatabase;
                                    Print "✅ Database initialized";
                                    CallGetConfig]))
        end
    end.
Proof.
  unfold lifespan, started. run_M.
  destruct (init_database (world s)) as [[[]|e] w1]; simpl; [|done].
  destruct (get_config w1) as [[cfg|e] w2]; simpl.
  - by rewrite <- !app_assoc.
  - destruct (Py.isinstance_Exception e); simpl; by rewrite <- !app_assoc.
Qed.

End Startup.

Section Claims.

Variable get_config : World -> Outcome Config * World.
Variable init_database : World -> Outcome unit * World.
Variable __file__ : string.

Lemma main_run (w : World) :
  main get_config __file__ w =
    match get_config (loaded w) with
    | (Ok cfg, w') =>
        (Ok (mkGlobals cfg (create_app __file__ w').1 (create_app __file__ w').2), w')
    | (Raise e, w') => (Raise e, w')
    end.
Proof.
  unfold main, load_dotenv, loaded. run_M.
  destruct (get_config _) as [[cfg|e] w']; simpl; [|done].
  by destruct (create_app __file__ w').
Qed.

Lemma run_server_run (steps : list Step) (s : St) :
  run_server get_config init_database steps s =
    match lifespan get_config init_database s with
    | (Ok shutdown, s1) =>
        match serve steps s1 with
        | (Ok log, s2) =>
            match shutdown s2 with
            | (Ok _, s3) => (Ok log, s3)
            | (Raise e, s3) => (Raise e, s3)
            end
        | (Raise e, s2) => (Raise e, s2)
        end
    | (Raise e, s1) => (Raise e, s1)
    end.
Proof.
  unfold run_server. run_M.
  destruct (lifespan _ _ s) as [[k|e] s1]; [|done].
  destruct (serve steps s1) as [[log|e] s2]; [|done].
  by destruct (k s2) as [[[]|e] s3].
Qed.

(** Whatever the startup half does, it leaves the wiring of the module
    as it found it; so does a whole server run. *)
Lemma lifespan_frame (s : St) :
  wiring (lifespan get_config init_database s).2 = wiring s.
Proof.
  rewrite lifespan_run.
  destruct (init_database (world s)) as [[[]|e] w1]; simpl; [|done].
  destruct (get_config w1) as [[cfg|e] w2]; simpl; [done|].
  by destruct (Py.isinstance_Exception e).
Qed.

(** What a completed startup hands back is the shutdown message. *)
Lemma lifespan_shutdown (s s1 : St) (shutdown : M St unit) :
  lifespan get_config init_database s = (Ok shutdown, s1) ->
  shutdown = print "🛑 Shutting down gracefully"
  /\ exists b, flag s1 = Some b.
Proof.
  rewrite lifespan_run.
  destruct (init_database (world s)) as [[[]|e] w1]; [|done].
  destruct (get_config w1) as [[cfg|e] w2].
  - intros [= <- <-]. split; [done|]. eexists.
    unfold flag, started. simpl. apply lookup_insert_eq.
  - destruct (Py.isinstance_Exception e); [|done].
    intros [= <- <-]. split; [done|]. eexists.
    unfold flag, started. simpl. apply lookup_insert_eq.
Qed.

Lemma run_server_frame (steps : list Step) (s : St) :
  wiring (run_server get_config init_database steps s).2 = wiring s.
Proof.
  rewrite <- (lifespan_frame s), run_server_run.
  destruct (lifespan _ _ s) as [[k|e] s1] eqn:Hup; [|done].
  destruct (lifespan_shutdown _ _ _ Hup) as [-> _].
  destruct (serve_frame steps s1) as (log & s2 & -> & Hg & _).
  simpl. unfold wiring. simpl. by rewrite Hg.
Qed.

(** *** C1 *)

(** C1. Whatever the request and whatever the exception, the global
    exception handler returns, with status 500, the one envelope
    success=false / "Internal server error" / "Something went wrong.
    Please try again."; the response is the same for every exception,
    so neither its text nor its class reaches the client. *)
Theorem global_exception_handler_constant
        (request : Request) (exc : Py.Exc) (s : St) :
  global_exception_handler request exc s =
    (Ok (Resp (JSONResponse 500 (JObj [
       ("success", JBool false);
       ("error", JStr "Internal server error");
       ("message", JStr "Something went wrong. Please try again.")]))), s)
  /\ forall request' exc',
       global_exception_handler request' exc' s
       = global_exception_handler request exc s.
Proof. split; reflexivity. Qed.

(** *** C2 *)

(** C2, as amended. Once the persistence initializer has returned, the
    startup half assigns the flag the truthiness of the credential of a
    freshly loaded configuration, which is "the credential is a
    non-empty string"; if the reload raises an instance of [Exception]
    the flag is assigned false and startup completes; an exception
    outside [Exception] is not caught and leaves the hook. *)
Theorem lifespan_flag (s : St) (w1 : World)
        (Hdb : init_database (world s) = (Ok tt, w1)) :
  lifespan get_config init_database s =
    match get_config w1 with
    | (Ok cfg, w2) =>
        (Ok (print "🛑 Shutting down gracefully"),
         started s w2 (Py.bool_ (gemini_api_key cfg)))
    | (Raise e, w2) =>
        if Py.isinstance_Exception e
        then (Ok (print "🛑 Shutting down gracefully"), started s w2 false)
        else (Raise e,
              mkSt (glob s) w2
                   (trace s ++ [CallInitDatabase;
                                Print "✅ Database initialized";
                                CallGetConfig]))
    end
  /\ (forall w b, flag (started s w b) = Some b)
  /\ (forall cfg, Py.bool_ (gemini_api_key cfg) = true
                  <-> exists k, gemini_api_key cfg = Some k /\ k <> EmptyString).
Proof.
  split; [|split].
  - rewrite lifespan_run, Hdb. reflexivity.
  - intros w b. unfold flag, started. simpl. apply lookup_insert_eq.
  - intros cfg. apply bool_nonempty.
Qed.

(** *** C3 *)

(** C3. Whatever the value of the flag, [/health] returns a dict with
    exactly the keys status, timestamp, version, ai_status, database;
    status is "healthy", version "1.0.0", ai_status "operational" or
    "unavailable" as the flag is true or false, and database is
    "connected" whatever the world: nothing is called, nothing
    changes. *)
Theorem health_check_report (s : St) (b : bool) (Hflag : flag s = Some b) :
  exists d,
    health_check s = (Ok (Dict d), s)
    /\ keys d = ["status"; "timestamp"; "version"; "ai_status"; "database"]
    /\ item "status" d = Some (JStr "healthy")
    /\ item "timestamp" d = Some (JStr (Datetime.isoformat (now (world s))))
    /\ item "version" d = Some (JStr "1.0.0")
    /\ item "ai_status" d
       = Some (JStr (if b then "operational" else "unavailable"))
    /\ (item "ai_status" d = Some (JStr "operational")
        \/ item "ai_status" d = Some (JStr "unavailable"))
    /\ item "database" d = Some (JStr "connected").
Proof.
  eexists. split; [apply (health_check_run s b Hflag)|].
  repeat split; try reflexivity.
  destruct b; [left | right]; reflexivity.
Qed.

(** *** C4 *)

(** C4. The flag is false in the application as constructed; the
    startup half assigns it at most once; and once startup has
    completed, serving any sequence of requests of this layer, with
    the world changing in between, and then shutting down assigns it
    never: the flag keeps the value startup left, and every [/health]
    call reports the [ai_status] of that value. *)
Theorem gemini_available_write_once
        (w : World) (s s1 : St) (shutdown : M St unit) (steps : list Step)
        (Hup : lifespan get_config init_database s = (Ok shutdown, s1)) :
  state (create_app __file__ w).1 !! "gemini_available" = Some false
  /\ (exists evs,
        trace (lifespan get_config init_database s).2 = trace s ++ evs
        /\ (writes evs <= 1)%nat)
  /\ (forall op s', (perform op s').2 = s')
  /\ exists b log s2 s3,
       flag s1 = Some b
       /\ serve steps s1 = (Ok log, s2)
       /\ shutdown s2 = (Ok tt, s3)
       /\ flag s2 = Some b /\ flag s3 = Some b
       /\ writes (trace s3) = writes (trace s1)
       /\ Forall (fun entry =>
                    entry.1 = GetHealth ->
                    exists d, entry.2 = Ok (Dict d)
                              /\ item "ai_status" d
                                 = Some (JStr (ai_status_of b)))
                 log.
Proof.
  split; [|split; [|split]].
  - unfold create_app. simpl. by destruct (Os.isdir _ _).
  - rewrite lifespan_run.
    destruct (init_database (world s)) as [[[]|e] w1]; simpl.
    + destruct (get_config w1) as [[cfg|e] w2]; simpl.
      * eexists. split; [reflexivity | simpl; lia].
      * destruct (Py.isinstance_Exception e); simpl;
          eexists; (split; [reflexivity | simpl; lia]).
    + eexists. split; [reflexivity | simpl; lia].
  - intros op s'. by destruct (perform_pure op s') as [r ->].
  - destruct (lifespan_shutdown _ _ _ Hup) as [-> [b Hb]].
    destruct (serve_health steps s1 b Hb) as (log & s2 & Hrun & Hg & Ht & Hlog).
    exists b, log, s2,
      (mkSt (glob s2) (world s2)
            (trace s2 ++ [Print "🛑 Shutting down gracefully"])).
    split; [done|]. split; [done|]. split; [done|].
    unfold flag in *. simpl. rewrite Hg, writes_app, Ht. simpl.
    repeat split; [done | done | lia | done].
Qed.

(** *** C5 *)

(** C5. The first thing the startup half does is call the persistence
    initializer; when that call raises, whatever the exception, it
    leaves the hook uncaught: the configuration is not reloaded, the
    flag is not assigned, and a server run on this hook serves no
    request. *)
Theorem init_database_failure_aborts
        (s : St) (e : Py.Exc) (w1 : World) (steps : list Step)
        (Hdb : init_database (world s) = (Raise e, w1)) :
  lifespan get_config init_database s
    = (Raise e, mkSt (glob s) w1 (trace s ++ [CallInitDatabase]))
  /\ run_server get_config init_database steps s
    = (Raise e, mkSt (glob s) w1 (trace s ++ [CallInitDatabase]))
  /\ forall s', exists evs,
       trace (lifespan get_config init_database s').2
       = trace s' ++ CallInitDatabase :: evs.
Proof.
  assert (lifespan get_config init_database s
          = (Raise e, mkSt (glob s) w1 (trace s ++ [CallInitDatabase]))) as Hup.
  { rewrite lifespan_run, Hdb. reflexivity. }
  split; [done|]. split.
  - rewrite run_server_run, Hup. reflexivity.
  - intros s'. rewrite lifespan_run.
    destruct (init_database (world s')) as [[[]|e'] w']; simpl.
    + destruct (get_config w') as [[cfg|e'] w2]; simpl; [by eexists|].
      destruct (Py.isinstance_Exception e'); simpl; by eexists.
    + by eexists.
Qed.

(** *** C6 *)

(** C6. The application is constructed with one middleware, the CORS
    policy whose origin list is the single value of CLIENT_URL in the
    environment, or "*" when the variable is unset, with credentials
    allowed and wildcard methods and headers; the environment read is
    the one the import leaves; no request, no startup and no shutdown
    changes the policy. *)
Theorem cors_policy_static (w : World) (s : St) (steps : list Step)
        (op : Operation) :
  user_middleware (create_app __file__ w).1
    = [mkCORS [match environ w !! "CLIENT_URL" with
               | Some url => url
               | None => "*"
               end] true ["*"] ["*"]]
  /\ match main get_config __file__ w with
     | (Ok g, w') =>
         user_middleware (app g)
         = [mkCORS [Os.getenv (environ w') "CLIENT_URL" "*"] true ["*"] ["*"]]
     | (Raise _, _) => True
     end
  /\ user_middleware (app (glob (perform op s).2)) = user_middleware (app (glob s))
  /\ user_middleware (app (glob (run_server get_config init_database steps s).2))
     = user_middleware (app (glob s)).
Proof.
  split; [|split; [|split]].
  - unfold create_app. simpl. by destruct (Os.isdir _ _).
  - rewrite main_run.
    destruct (get_config (loaded w)) as [[cfg|e] w']; [|done].
    unfold create_app. simpl. by destruct (Os.isdir _ _).
  - by destruct (perform_pure op s) as [r ->].
  - pose proof (run_server_frame steps s) as Hw. unfold wiring in Hw. congruence.
Qed.

(** *** C7 *)

(** What [/favicon.ico] comes to, by the kind of node at
    static/favicon.svg: a regular file is sent with status 200, a missing
    path gives the "favicon not found" dict with status 200, and for a
    directory the handler returns a file response whose sending raises. *)
Lemma favicon_sent (s : St) :
  let path := Os.join (static_dir (glob s)) "favicon.svg" in
  exists r,
    favicon s = (Ok r, s)
    /\ match fs (world s) !! path with
       | Some Os.RegularFile =>
           r = Resp (FileResponse path "image/svg+xml")
           /\ send (fs (world s)) (serialize_response r)
              = Ok (mkSent 200 (FileBody path "image/svg+xml"))
       | Some Os.Directory =>
           r = Resp (FileResponse path "image/svg+xml")
           /\ exists e, send (fs (world s)) (serialize_response r) = Raise e
       | None =>
           r = Dict (JObj [("detail", JStr "favicon not found")])
           /\ send (fs (world s)) (serialize_response r)
              = Ok (mkSent 200
                      (JSONBody (JObj [("detail", JStr "favicon not found")])))
       end.
Proof.
  cbv zeta. unfold favicon, Os.exists_. run_M.
  destruct (fs (world s) !! Os.join (static_dir (glob s)) "favicon.svg")
    as [[]|] eqn:Hnode; eexists; (split; [reflexivity|]); simpl;
    rewrite ?Hnode; try done.
  split; [done|]. by eexists.
Qed.

(** C7 does not hold of the code. With static/favicon.svg a directory
    there is no SVG file to serve, yet [os.path.exists] is true of the
    path: [favicon] does not fall back to the "favicon not found" dict,
    it returns a file response for the directory. Sending that response
    raises [RuntimeError], and what the client receives is the status
    500 envelope of the global exception handler. *)
Theorem favicon_directory_not_served :
  let s := Sample.imported Sample.favicon_directory in
  let path := "/srv/scm/app/static/favicon.svg" in
  fs (world s) !! path = Some Os.Directory
  /\ favicon s = (Ok (Resp (FileResponse path "image/svg+xml")), s)
  /\ send (fs (world s)) (FileResponse path "image/svg+xml")
     = Raise (Py.mkExc Py.RuntimeError
                "File at path /srv/scm/app/static/favicon.svg is not a file.")
  /\ Py.isinstance_Exception
       (Py.mkExc Py.RuntimeError
          "File at path /srv/scm/app/static/favicon.svg is not a file.")
     = true
  /\ forall request exc,
       (global_exception_handler request exc s).1
       = Ok (Resp (JSONResponse 500 (JObj [
               ("success", JBool false);
               ("error", JStr "Internal server error");
               ("message", JStr "Something went wrong. Please try again.")]))).
Proof. cbv zeta. repeat split; reflexivity. Qed.

(** *** C8 *)

(** C8. [/] returns the same dict in every state and leaves the state
    alone; its version is "1.0.0" and its endpoints map has exactly
    the keys demand_forecasting, inventory_management,
    logistics_tracking, scenario_analysis, reports. *)
Theorem root_metadata (s : St) :
  exists d eps,
    root s = (Ok (Dict d), s)
    /\ (forall s', (root s').1 = Ok (Dict d))
    /\ item "version" d = Some (JStr "1.0.0")
    /\ item "endpoints" d = Some eps
    /\ keys eps = ["demand_forecasting"; "inventory_management";
                   "logistics_tracking"; "scenario_analysis"; "reports"].
Proof. do 2 eexists. repeat split; reflexivity. Qed.

(** *** C9 *)

(** C9. The application as constructed has a mount exactly when the
    static directory next to [main.py] is a directory, and then it is
    the one mount of that directory under /static; constructing never
    fails, so importing the module fails only when the configuration
    loader does. *)
Theorem static_mount_iff_directory (w : World) :
  let a := (create_app __file__ w).1 in
  let d := (create_app __file__ w).2 in
  d = Os.join (Os.dirname __file__) "static"
  /\ existsb is_mount (routes a) = Os.isdir (fs w) d
  /\ List.filter is_mount (routes a)
     = (if Os.isdir (fs w) d then [Mount "/static" d "static"] else [])
  /\ main get_config __file__ w
     = match get_config (loaded w) with
       | (Ok cfg, w') =>
           (Ok (mkGlobals cfg (create_app __file__ w').1
                          (create_app __file__ w').2), w')
       | (Raise e, w') => (Raise e, w')
       end.
Proof.
  simpl. split; [reflexivity|]. split; [|split].
  - unfold create_app. simpl. by destruct (Os.isdir _ _).
  - unfold create_app. simpl. by destruct (Os.isdir _ _).
  - apply main_run.
Qed.

(** *** C10 *)

Lemma lifespan_blind : blind (lifespan get_config init_database).
Proof.
  intros c s. rewrite !lifespan_run. simpl.
  destruct (init_database (world s)) as [[[]|e] w1]; [|done].
  destruct (get_config w1) as [[cfg|e] w2]; [done|].
  by destruct (Py.isinstance_Exception e).
Qed.

Lemma perform_blind (op : Operation) : blind (perform op).
Proof.
  intros c s.
  destruct op; simpl;
    unfold root, health_check, favicon, global_exception_handler; run_M;
    try reflexivity.
  - by destruct (state (app (glob s)) !! "gemini_available").
  - by destruct (Os.exists_ _ _).
Qed.

Lemma serve_blind (steps : list Step) : blind (serve steps).
Proof.
  induction steps as [|[op|change] rest IH]; intros c s; simpl.
  - reflexivity.
  - run_M. rewrite (perform_blind op c s).
    destruct (perform op s) as [r s1]. simpl. rewrite (IH c s1).
    by destruct (serve rest s1) as [[log|e] s2].
  - run_M.
    change (mkSt (mkGlobals c (app (glob s)) (static_dir (glob s)))
                 (change (world s)) (trace s))
      with (with_config c (mkSt (glob s) (change (world s)) (trace s))).
    rewrite IH. by destruct (serve rest _) as [[log|e] s2].
Qed.

(** C10. The snapshot taken at import time is never read: the startup
    half, every request handler and a whole server run return the same
    and end in the same state, the snapshot itself apart, whatever that
    snapshot is; so the flag and every response are those of the run
    with any other import-time snapshot. *)
Theorem import_snapshot_never_read
        (c : Config) (s : St) (op : Operation) (steps : list Step) :
  lifespan get_config init_database (with_config c s)
    = (let '(r, s') := lifespan get_config init_database s in
       (r, with_config c s'))
  /\ perform op (with_config c s)
     = (let '(r, s') := perform op s in (r, with_config c s'))
  /\ run_server get_config init_database steps (with_config c s)
     = (let '(r, s') := run_server get_config init_database steps s in
        (r, with_config c s'))
  /\ (run_server get_config init_database steps (with_config c s)).1
     = (run_server get_config init_database steps s).1
  /\ flag (run_server get_config init_database steps (with_config c s)).2
     = flag (run_server get_config init_database steps s).2.
Proof.
  assert (run_server get_config init_database steps (with_config c s)
          = (let '(r, s') := run_server get_config init_database steps s in
             (r, with_config c s'))) as Hrun.
  { rewrite !run_server_run, (lifespan_blind c s).
    destruct (lifespan _ _ s) as [[k|e] s1] eqn:Hup; [|done].
    destruct (lifespan_shutdown _ _ _ Hup) as [-> _].
    rewrite (serve_blind steps c s1).
    by destruct (serve steps s1) as [[log|e] s2]. }
  split; [apply lifespan_blind|]. split; [apply perform_blind|].
  split; [done|]. rewrite Hrun.
  by destruct (run_server _ _ steps s).
Qed.

End Claims.

(** ** The claims on sample deployments *)

(** C2, as stated, fails: a loader that leaves through [sys.exit] raises
    [SystemExit], which [except Exception] does not catch; the startup
    half raises it in turn instead of completing with the flag false. *)
Lemma lifespan_propagates_system_exit :
  let s := Sample.imported Sample.deployed in
  Sample.database_ready (world s) = (Ok tt, world s)
  /\ Sample.config_failing Sample.exit_requested (world s)
     = (Raise Sample.exit_requested, world s)
  /\ lifespan (Sample.config_failing Sample.exit_requested)
              Sample.database_ready s
     = (Raise Sample.exit_requested,
        mkSt (glob s) (world s)
             [CallInitDatabase; Print "✅ Database initialized"; CallGetConfig])
  /\ ~ (forall get_config init_database s w1 e w2,
          init_database (world s) = (Ok tt, w1) ->
          get_config w1 = (Raise e, w2) ->
          exists shutdown s',
            lifespan get_config init_database s = (Ok shutdown, s')
            /\ flag s' = Some false).
Proof.
  cbv zeta. split; [reflexivity|]. split; [reflexivity|]. split; [reflexivity|].
  intros Hclaim.
  destruct (Hclaim (Sample.config_failing Sample.exit_requested)
                   Sample.database_ready
                   (Sample.imported Sample.deployed)
                   Sample.deployed Sample.exit_requested Sample.deployed
                   eq_refl eq_refl)
    as (shutdown & s' & Hrun & _).
  discriminate Hrun.
Qed.

Lemma lifespan_flag_witness :
  let s := Sample.imported Sample.deployed in
  Sample.database_ready (world s) = (Ok tt, world s)
  /\ flag (lifespan (Sample.config_failing Sample.malformed)
                    Sample.database_ready s).2 = Some false
  /\ flag (lifespan Sample.config_with_key Sample.database_ready s).2
     = Some true
  /\ flag (lifespan Sample.config_without_key Sample.database_ready s).2
     = Some false.
Proof.
  cbv zeta. split; [reflexivity|]. split; [|split].
  - rewrite (proj1 (lifespan_flag (Sample.config_failing Sample.malformed)
                                  Sample.database_ready
                                  (Sample.imported Sample.deployed)
                                  Sample.deployed eq_refl)).
    reflexivity.
  - rewrite (proj1 (lifespan_flag Sample.config_with_key
                                  Sample.database_ready
                                  (Sample.imported Sample.deployed)
                                  Sample.deployed eq_refl)).
    reflexivity.
  - rewrite (proj1 (lifespan_flag Sample.config_without_key
                                  Sample.database_ready
                                  (Sample.imported Sample.deployed)
                                  Sample.deployed eq_refl)).
    reflexivity.
Defined.

Lemma gemini_available_write_once_witness :
  let s := Sample.imported Sample.deployed in
  let s1 := started s Sample.deployed true in
  lifespan Sample.config_with_key Sample.database_ready s
    = (Ok (print "🛑 Shutting down gracefully"), s1)
  /\ state (create_app Sample.file Sample.bare).1 !! "gemini_available"
     = Some false
  /\ exists b log s2 s3,
       flag s1 = Some b
       /\ serve [Handle GetHealth; Outside (fun _ => Sample.bare);
                 Handle GetFavicon; Handle GetHealth] s1 = (Ok log, s2)
       /\ print "🛑 Shutting down gracefully" s2 = (Ok tt, s3)
       /\ flag s3 = Some b.
Proof.
  cbv zeta. split; [reflexivity|].
  destruct (gemini_available_write_once
              Sample.config_with_key Sample.database_ready Sample.file
              Sample.bare (Sample.imported Sample.deployed)
              (started (Sample.imported Sample.deployed) Sample.deployed true)
              (print "🛑 Shutting down gracefully")
              [Handle GetHealth; Outside (fun _ => Sample.bare);
               Handle GetFavicon; Handle GetHealth]
              eq_refl)
    as (Hnew & _ & _ & b & log & s2 & s3 & Hb & Hserve & Hdown & _ & Hflag & _).
  split; [exact Hnew|].
  exists b, log, s2, s3. split; [exact Hb|]. split; [exact Hserve|].
  split; [exact Hdown|]. exact Hflag.
Defined.

(** After construction the flag is assigned, so [/health] answers. *)
Lemma health_check_report_witness :
  let s := Sample.imported Sample.bare in
  flag s = Some false
  /\ exists d, health_check s = (Ok (Dict d), s)
               /\ item "ai_status" d = Some (JStr "unavailable").
Proof.
  cbv zeta. split; [reflexivity|].
  destruct (health_check_report (Sample.imported Sample.bare) false eq_refl)
    as (d & Hrun & _ & _ & _ & _ & Hai & _).
  exists d. split; [exact Hrun | exact Hai].
Defined.

Lemma init_database_failure_aborts_witness :
  let s := Sample.imported Sample.deployed in
  Sample.database_failing Sample.locked (world s)
    = (Raise Sample.locked, world s)
  /\ run_server Sample.config_with_key (Sample.database_failing Sample.locked)
                [Handle GetHealth; Handle GetRoot] s
     = (Raise Sample.locked, mkSt (glob s) (world s) [CallInitDatabase]).
Proof.
  cbv zeta. split; [reflexivity|].
  exact (proj1 (proj2 (init_database_failure_aborts
                         Sample.config_with_key
                         (Sample.database_failing Sample.locked)
                         (Sample.imported Sample.deployed)
                         Sample.locked Sample.deployed
                         [Handle GetHealth; Handle GetRoot] eq_refl))).
Defined.


(** * Further properties of the module *)

(** ** Paths *)

Lemma rev_chars_append (s t : string) (acc : list ascii) :
  Os.rev_chars (s +:+ t) acc = Os.rev_chars t (Os.rev_chars s acc).
Proof.
  revert acc. induction s as [|c s IH]; intros acc; simpl; [done|]. apply IH.
Qed.

Lemma of_rev_chars_rev (s t : string) (acc : list ascii) :
  Os.of_rev_chars (Os.rev_chars s acc) t = Os.of_rev_chars acc (s +:+ t).
Proof.
  revert acc t. induction s as [|c s IH]; intros acc t; simpl; [done|].
  by rewrite IH.
Qed.

Lemma drop_file_name (name : string) (acc : list ascii) :
  no_sep name = true ->
  Os.drop_tail_component (Os.rev_chars name acc) = Os.drop_tail_component acc.
Proof.
  revert acc. induction name as [|c name IH]; intros acc Hname; simpl; [done|].
  simpl in Hname. apply andb_prop in Hname as [Hc Hname].
  rewrite (IH _ Hname). simpl. by destruct (bool_decide (c = Os.sep)).
Qed.

(** The last character of a non-empty string that does not end with a
    separator comes first in the reversal, and is no separator. *)
Lemma rev_chars_last (dir : string) (acc : list ascii) :
  dir <> EmptyString -> Os.endswith_sep dir = false ->
  exists c rest, Os.rev_chars dir acc = c :: rest /\ c <> Os.sep.
Proof.
  revert acc. induction dir as [|c dir IH]; intros acc Hne Hend; [done|].
  destruct dir as [|c' dir].
  - simpl in *. exists c, acc. split; [done|].
    by apply bool_decide_eq_false in Hend.
  - change (Os.rev_chars (String c (String c' dir)) acc)
      with (Os.rev_chars (String c' dir) (c :: acc)).
    apply IH; [done|]. exact Hend.
Qed.

Lemma endswith_sep_append (a : string) (c : ascii) (b : string) :
  Os.endswith_sep (a +:+ String c b) = Os.endswith_sep (String c b).
Proof.
  induction a as [|x a IH]; [done|].
  change (Os.endswith_sep (String x (a +:+ String c b))
          = Os.endswith_sep (String c b)).
  destruct (a +:+ String c b) eqn:Happ; [by destruct a|].
  rewrite <- IH. reflexivity.
Qed.

Lemma dirname_of_file (dir name : string) :
  dir <> EmptyString -> Os.endswith_sep dir = false -> no_sep name = true ->
  Os.dirname (dir +:+ String Os.sep name) = dir.
Proof.
  intros Hne Hend Hname. unfold Os.dirname.
  rewrite rev_chars_append. simpl.
  rewrite (drop_file_name _ _ Hname). simpl.
  destruct (rev_chars_last dir [] Hne Hend) as (c & rest & Hrev & Hc).
  rewrite Hrev. simpl. rewrite bool_decide_eq_false_2 by done.
  change (Os.of_rev_chars (c :: rest) EmptyString = dir).
  rewrite <- Hrev, of_rev_chars_rev. simpl.
  clear. induction dir as [|x dir IH]; [done|].
  change (String x (dir +:+ EmptyString) = String x dir). by f_equal.
Qed.

Lemma dirname_of_bare_name (name : string) :
  no_sep name = true -> Os.dirname name = EmptyString.
Proof.
  intros Hname. unfold Os.dirname.
  by rewrite (drop_file_name _ _ Hname).
Qed.

Lemma join_below (dir name : string) (c : ascii) :
  dir <> EmptyString -> Os.endswith_sep dir = false -> c <> Os.sep ->
  Os.join dir (String c name) = dir +:+ String Os.sep (String c name).
Proof.
  intros Hne Hend Hc. unfold Os.join. simpl.
  rewrite bool_decide_eq_false_2 by done.
  destruct dir; [done|]. by rewrite Hend.
Qed.

Lemma favicon_run (s : St) :
  favicon s
    = (Ok (if Os.exists_ (fs (world s))
                         (Os.join (static_dir (glob s)) "favicon.svg")
           then Resp (FileResponse (Os.join (static_dir (glob s)) "favicon.svg")
                                   "image/svg+xml")
           else Dict (JObj [("detail", JStr "favicon not found")])), s).
Proof. unfold favicon. run_M. by destruct (Os.exists_ _ _). Qed.

(** ** The route table *)

(** Two prefixes of one string: one is a prefix of the other. *)
Lemma prefix_comparable (a b p : string) :
  String.prefix a p = true -> String.prefix b p = true ->
  String.prefix a b = true \/ String.prefix b a = true.
Proof.
  revert b p. induction a as [|x a IH]; intros b p Ha Hb;
    [left; by destruct b|].
  destruct b as [|y b]; [by right|].
  destruct p as [|z p]; simpl in *; [done|].
  destruct (ascii_dec x z) as [->|]; [|done].
  destruct (ascii_dec y z) as [->|]; [|done].
  destruct (ascii_dec z z); [|done]. by apply (IH b p).
Qed.

Lemma prefix_refl (a : string) : String.prefix a a = true.
Proof.
  induction a as [|x a IH]; [done|]. simpl. by destruct (ascii_dec x x).
Qed.

Lemma claims_overlap (r1 r2 : Route) (p : string) :
  claims r1 p = true -> claims r2 p = true ->
  overlap (pattern r1) (pattern r2) = true.
Proof.
  unfold claims, overlap.
  destruct (pattern r1) as [q1|q1], (pattern r2) as [q2|q2]; intros H1 H2.
  - apply String.eqb_eq in H1, H2. subst. apply String.eqb_refl.
  - apply String.eqb_eq in H1. by subst.
  - apply String.eqb_eq in H2. by subst.
  - destruct (prefix_comparable q1 q2 p H1 H2) as [-> | ->];
      [done | apply orb_true_r].
Qed.

Lemma separated_single (l : list Route) (p : string) :
  separated l = true ->
  (List.length (List.filter (fun r => claims r p) l) <= 1)%nat.
Proof.
  induction l as [|r rest IH]; intros Hsep; simpl; [lia|].
  simpl in Hsep. apply andb_prop in Hsep as [Hr Hrest].
  destruct (claims r p) eqn:Hclaim; [|by apply IH].
  assert (List.filter (fun r' => claims r' p) rest = []) as ->; [|simpl; lia].
  clear IH Hrest. induction rest as [|r' rest IH]; simpl; [done|].
  simpl in Hr. apply andb_prop in Hr as [Hr' Hr].
  destruct (claims r' p) eqn:Hclaim'; [|by apply IH].
  by rewrite (claims_overlap r r' p Hclaim Hclaim') in Hr'.
Qed.

Section Further.

Variable get_config : World -> Outcome Config * World.
Variable init_database : World -> Outcome unit * World.
Variable __file__ : string.

(** X1. Between import and startup [/health] answers "unavailable",
    whatever the import-time snapshot holds and whatever has become of
    the world since. *)
Theorem health_before_startup
        (w w' later : World) (g : Globals) (t : list Event)
        (Himport : main get_config __file__ w = (Ok g, w')) :
  exists d,
    health_check (mkSt g later t) = (Ok (Dict d), mkSt g later t)
    /\ item "ai_status" d = Some (JStr "unavailable").
Proof.
  rewrite main_run in Himport.
  destruct (get_config (loaded w)) as [[cfg|e] w1]; [|done].
  injection Himport as <- <-.
  eexists. split.
  - apply (health_check_run _ false).
    unfold flag, create_app. simpl. by destruct (Os.isdir _ _).
  - reflexivity.
Qed.

(** X2. When startup reloads a configuration, every [/health] answer of
    the run says "operational" exactly when its credential is a
    non-empty string, and "unavailable" otherwise. *)
Theorem health_after_startup
        (s : St) (w1 w2 : World) (cfg : Config) (steps : list Step)
        (Hdb : init_database (world s) = (Ok tt, w1))
        (Hcfg : get_config w1 = (Ok cfg, w2)) :
  exists log s3,
    run_server get_config init_database steps s = (Ok log, s3)
    /\ Forall (fun entry : Operation * Outcome Returned =>
                 entry.1 = GetHealth ->
                 exists status,
                   (exists d, entry.2 = Ok (Dict d)
                              /\ item "ai_status" d = Some (JStr status))
                   /\ (status = "operational"
                       <-> exists k, gemini_api_key cfg = Some k
                                     /\ k <> EmptyString)
                   /\ (status = "unavailable"
                       <-> gemini_api_key cfg = None
                           \/ gemini_api_key cfg = Some EmptyString))
              log.
Proof.
  rewrite run_server_run, lifespan_run, Hdb, Hcfg.
  set (b := Py.bool_ (gemini_api_key cfg)).
  assert (flag (started s w2 b) = Some b) as Hflag.
  { unfold flag, started. simpl. apply lookup_insert_eq. }
  destruct (serve_health steps _ b Hflag) as (log & s2 & -> & _ & _ & Hlog).
  exists log. eexists. split; [reflexivity|].
  eapply Forall_impl; [exact Hlog|]. intros entry Hentry Hop.
  destruct (Hentry Hop) as (d & Hd & Hai).
  exists (ai_status_of b). split; [by exists d|].
  subst b. destruct (gemini_api_key cfg) as [[|c k]|]; simpl; split; split;
    try done; try (intros [H|H]; done); try (by intros (k' & [= <-] & Hk));
    try (by right); try (by left).
  intros _. exists (String c k). by split.
Qed.

(** X3. The effects of a complete run, in order: the initializer is
    called, the first message printed, the configuration loaded, the
    flag assigned, and at the end the shutdown message printed; each
    once, and the requests in between leave no effect of their own. *)
Theorem run_server_trace
        (s s1 : St) (shutdown : M St unit) (steps : list Step)
        (Hup : lifespan get_config init_database s = (Ok shutdown, s1)) :
  exists b log s3,
    run_server get_config init_database steps s = (Ok log, s3)
    /\ trace s3 = trace s ++ [CallInitDatabase;
                              Print "✅ Database initialized";
                              CallGetConfig;
                              SetGeminiAvailable b;
                              Print "🛑 Shutting down gracefully"]
    /\ flag s3 = Some b.
Proof.
  rewrite run_server_run, Hup.
  assert (exists w b, s1 = started s w b) as (w & b & Hs1).
  { rewrite lifespan_run in Hup.
    destruct (init_database (world s)) as [[[]|e] w1]; [|done].
    destruct (get_config w1) as [[cfg|e] w2].
    - injection Hup as _ <-. by eexists _, _.
    - destruct (Py.isinstance_Exception e); [|done].
      injection Hup as _ <-. by eexists _, _. }
  destruct (lifespan_shutdown _ _ _ _ _ Hup) as [-> _]. subst s1.
  destruct (serve_frame steps (started s w b)) as (log & s2 & -> & Hg & Ht).
  exists b, log. eexists. split; [reflexivity|]. simpl.
  unfold flag. simpl. rewrite Ht, Hg. simpl. split.
  - by rewrite <- app_assoc.
  - apply lookup_insert_eq.
Qed.

(** X4. A startup that completes ends in the same state whatever
    value the flag held before: the flag is recomputed, never read. *)
Theorem startup_overwrites_flag
        (s s1 : St) (shutdown : M St unit) (b0 : bool)
        (Hup : lifespan get_config init_database s = (Ok shutdown, s1)) :
  lifespan get_config init_database (with_flag b0 s) = (Ok shutdown, s1).
Proof.
  rewrite lifespan_run in *. simpl.
  assert (forall w b, started (with_flag b0 s) w b = started s w b) as Hsame.
  { intros w b. unfold started, with_flag, set_state. simpl.
    by rewrite insert_insert_eq. }
  destruct (init_database (world s)) as [[[]|e] w1]; [|done].
  destruct (get_config w1) as [[cfg|e] w2].
  - by rewrite Hsame.
  - destruct (Py.isinstance_Exception e); [|done]. by rewrite Hsame.
Qed.

(** X5. The allowed origin of an imported application: the CLIENT_URL
    of the process environment if it is set, else the CLIENT_URL line of
    the .env file if there is one, else "*"; provided the configuration
    loader leaves the environment as [load_dotenv] made it. *)
Theorem cors_origin_precedence
        (w w' : World) (cfg : Config)
        (Hcfg : get_config (loaded w) = (Ok cfg, w'))
        (Henv : environ w' = environ (loaded w)) :
  exists g,
    main get_config __file__ w = (Ok g, w')
    /\ user_middleware (app g)
       = [mkCORS [match environ w !! "CLIENT_URL" with
                  | Some url => url
                  | None => match dotenv w !! "CLIENT_URL" with
                            | Some url => url
                            | None => "*"
                            end
                  end] true ["*"] ["*"]].
Proof.
  rewrite main_run, Hcfg. eexists. split; [reflexivity|].
  unfold create_app. simpl.
  destruct (Os.isdir _ _); simpl;
    unfold Os.getenv; rewrite Henv; unfold loaded; simpl;
    rewrite lookup_union;
    by destruct (environ w !! "CLIENT_URL"), (dotenv w !! "CLIENT_URL").
Qed.

(** X6. What [/] advertises and what is registered agree: every
    advertised endpoint lies under the prefix of a registered route
    group, and every registered route group has an advertised endpoint
    under its prefix. *)
Theorem advertised_endpoints_registered (w : World) (s : St) :
  exists d items,
    root s = (Ok (Dict d), s)
    /\ item "endpoints" d = Some (JObj items)
    /\ Forall (fun entry : string * JSON =>
                 exists url,
                   entry.2 = JStr url
                   /\ Exists (fun prefix => String.prefix prefix url = true)
                             (router_prefixes (create_app __file__ w).1))
              items
    /\ Forall (fun prefix =>
                 Exists (fun entry : string * JSON =>
                           exists url, entry.2 = JStr url
                                       /\ String.prefix prefix url = true)
                        items)
              (router_prefixes (create_app __file__ w).1).
Proof.
  do 2 eexists. split; [reflexivity|]. split; [reflexivity|].
  assert (router_prefixes (create_app __file__ w).1
          = ["/api/demand"; "/api/inventory"; "/api/logistics";
             "/api/scenarios"; "/api/reports"]) as ->.
  { unfold create_app, router_prefixes. simpl. by destruct (Os.isdir _ _). }
  split.
  - repeat (constructor;
            [eexists; split; [reflexivity|];
             repeat (first [ by apply Exists_cons_hd | apply Exists_cons_tl ])|]).
    constructor.
  - repeat (constructor;
            [repeat (first [ by (apply Exists_cons_hd; eexists; split;
                                 [reflexivity | reflexivity])
                           | apply Exists_cons_tl ])|]).
    constructor.
Qed.

(** X7. Whatever the file system at import, no request path can be
    served by two registrations of the application: the documentation
    routes that the constructor registers, the routes of this module,
    the static mount and the route groups have pairwise disjoint paths,
    so the order of registration decides nothing. *)
Theorem routes_claim_disjoint (w : World) (p : string) :
  (List.length (List.filter (fun r => claims r p)
                            (routes (create_app __file__ w).1)) <= 1)%nat.
Proof.
  apply separated_single.
  unfold create_app. simpl. by destruct (Os.isdir _ _).
Qed.

(** X8. With [main.py] at [dir/name], [dir] a non-empty path without a
    trailing separator, the static directory is [dir/static] and the
    favicon is looked up at [dir/static/favicon.svg]. *)
Theorem static_dir_sibling
        (w : World) (dir name : string) (s : St)
        (Hdir : dir <> EmptyString)
        (Hend : Os.endswith_sep dir = false)
        (Hname : no_sep name = true)
        (Hs : static_dir (glob s)
              = (create_app (dir +:+ String Os.sep name) w).2) :
  (create_app (dir +:+ String Os.sep name) w).2 = dir +:+ "/static"
  /\ favicon s
     = (Ok (if Os.exists_ (fs (world s)) (dir +:+ "/static/favicon.svg")
            then Resp (FileResponse (dir +:+ "/static/favicon.svg")
                                    "image/svg+xml")
            else Dict (JObj [("detail", JStr "favicon not found")])), s).
Proof.
  assert ((create_app (dir +:+ String Os.sep name) w).2 = dir +:+ "/static")
    as Hstatic.
  { unfold create_app. simpl.
    rewrite (dirname_of_file dir name Hdir Hend Hname).
    by apply join_below. }
  split; [exact Hstatic|].
  rewrite favicon_run.
  rewrite Hs, Hstatic.
  assert (Os.join (dir +:+ "/static") "favicon.svg"
          = dir +:+ "/static/favicon.svg") as ->; [|done].
  rewrite join_below.
  - clear. induction dir as [|x dir IH]; [done|].
    change (String x ((dir +:+ "/static") +:+ "/favicon.svg")
            = String x (dir +:+ "/static/favicon.svg")).
    f_equal. exact IH.
  - by destruct dir.
  - apply (endswith_sep_append dir "/"%char "static").
  - done.
Qed.

(** X9. With [main.py] given by a bare file name, the static directory
    is the relative path [static]: it is looked up from the working
    directory of the process. *)
Theorem static_dir_relative (w : World) (name : string)
        (Hname : no_sep name = true) :
  (create_app name w).2 = "static"
  /\ existsb is_mount (routes (create_app name w).1)
     = Os.isdir (fs w) "static".
Proof.
  unfold create_app. simpl. rewrite (dirname_of_bare_name name Hname).
  split; [reflexivity|]. by destruct (Os.isdir _ _).
Qed.

(** X11. A server run, whatever it serves and however it ends, changes
    nothing in the module globals but [app.state.gemini_available]. *)
Theorem run_server_changes_flag_only (steps : list Step) (s : St) :
  glob (run_server get_config init_database steps s).2 = glob s
  \/ exists b,
       glob (run_server get_config init_database steps s).2
       = glob (with_flag b s).
Proof.
  rewrite run_server_run, lifespan_run.
  destruct (init_database (world s)) as [[[]|e] w1]; [|by left].
  assert (forall w b,
             glob (match serve steps (started s w b) with
                   | (Ok log, s2) =>
                       match print "🛑 Shutting down gracefully" s2 with
                       | (Ok _, s3) => (Ok log, s3)
                       | (Raise e, s3) => (Raise e, s3)
                       end
                   | (Raise e, s2) => (Raise e, s2)
                   end).2 = glob (with_flag b s)) as Hserve.
  { intros w b.
    destruct (serve_frame steps (started s w b)) as (log & s2 & -> & Hg & _).
    simpl. by rewrite Hg. }
  destruct (get_config w1) as [[cfg|e] w2].
  - right. eexists. apply Hserve.
  - destruct (Py.isinstance_Exception e); [|by left].
    right. eexists. apply Hserve.
Qed.

(** X12. The application object, [/] and [/health] tell the same
    story: the name, description and version that [/] returns are the
    title, description and version the application was constructed
    with, and [/health] reports that version too. *)
Theorem metadata_consistent (w : World) (s : St) (b : bool)
        (Hflag : flag s = Some b) :
  exists d h,
    root s = (Ok (Dict d), s)
    /\ health_check s = (Ok (Dict h), s)
    /\ item "name" d = Some (JStr (title (create_app __file__ w).1))
    /\ item "description" d
       = Some (JStr (description (create_app __file__ w).1))
    /\ item "version" d = Some (JStr (version (create_app __file__ w).1))
    /\ item "version" h = item "version" d.
Proof.
  do 2 eexists. split; [reflexivity|].
  split; [apply (health_check_run s b Hflag)|].
  unfold create_app. simpl. by destruct (Os.isdir _ _).
Qed.

End Further.

(** ** The further properties on sample deployments *)

Lemma health_before_startup_witness :
  main Sample.config_with_key Sample.file Sample.deployed
    = (Ok (glob (with_config (mkConfig (Some "AIza-sample"))
                             (Sample.imported (loaded Sample.deployed)))),
       loaded Sample.deployed)
  /\ exists d,
       (health_check
          (with_config (mkConfig (Some "AIza-sample"))
                       (Sample.imported (loaded Sample.deployed)))).1
       = Ok (Dict d)
       /\ item "ai_status" d = Some (JStr "unavailable").
Proof.
  split; [reflexivity|].
  destruct (health_before_startup
              Sample.config_with_key Sample.file Sample.deployed
              (loaded Sample.deployed) (loaded Sample.deployed)
              (glob (with_config (mkConfig (Some "AIza-sample"))
                                 (Sample.imported (loaded Sample.deployed))))
              [] eq_refl) as (d & Hrun & Hai).
  exists d. split; [|exact Hai].
  change (with_config (mkConfig (Some "AIza-sample"))
                      (Sample.imported (loaded Sample.deployed)))
    with (mkSt (glob (with_config (mkConfig (Some "AIza-sample"))
                                  (Sample.imported (loaded Sample.deployed))))
               (loaded Sample.deployed) []).
  by rewrite Hrun.
Defined.

Lemma health_after_startup_witness :
  let s := Sample.imported Sample.deployed in
  Sample.database_ready (world s) = (Ok tt, Sample.deployed)
  /\ Sample.config_with_key Sample.deployed
     = (Ok (mkConfig (Some "AIza-sample")), Sample.deployed)
  /\ exists log s3,
       run_server Sample.config_with_key Sample.database_ready
                  [Handle GetHealth; Handle GetRoot] s = (Ok log, s3).
Proof.
  cbv zeta. split; [reflexivity|]. split; [reflexivity|].
  destruct (health_after_startup
              Sample.config_with_key Sample.database_ready
              (Sample.imported Sample.deployed) Sample.deployed Sample.deployed
              (mkConfig (Some "AIza-sample"))
              [Handle GetHealth; Handle GetRoot] eq_refl eq_refl)
    as (log & s3 & Hrun & _).
  by exists log, s3.
Defined.

Lemma run_server_trace_witness :
  let s := Sample.imported Sample.deployed in
  lifespan (Sample.config_failing Sample.malformed) Sample.database_ready s
    = (Ok (print "🛑 Shutting down gracefully"),
       started s Sample.deployed false)
  /\ exists b log s3,
       run_server (Sample.config_failing Sample.malformed)
                  Sample.database_ready [Handle GetFavicon] s = (Ok log, s3)
       /\ List.length (trace s3) = 5%nat
       /\ flag s3 = Some b.
Proof.
  cbv zeta. split; [reflexivity|].
  destruct (run_server_trace
              (Sample.config_failing Sample.malformed) Sample.database_ready
              (Sample.imported Sample.deployed)
              (started (Sample.imported Sample.deployed) Sample.deployed false)
              (print "🛑 Shutting down gracefully")
              [Handle GetFavicon] eq_refl)
    as (b & log & s3 & Hrun & Ht & Hflag).
  exists b, log, s3. split; [exact Hrun|]. split; [|exact Hflag].
  by rewrite Ht.
Defined.

Lemma startup_overwrites_flag_witness :
  let s := Sample.imported Sample.deployed in
  lifespan Sample.config_without_key Sample.database_ready s
    = (Ok (print "🛑 Shutting down gracefully"),
       started s Sample.deployed false)
  /\ lifespan Sample.config_without_key Sample.database_ready
              (with_flag true s)
     = (Ok (print "🛑 Shutting down gracefully"),
        started s Sample.deployed false).
Proof.
  cbv zeta. split; [reflexivity|].
  exact (startup_overwrites_flag
           Sample.config_without_key Sample.database_ready
           (Sample.imported Sample.deployed)
           (started (Sample.imported Sample.deployed) Sample.deployed false)
           (print "🛑 Shutting down gracefully") true eq_refl).
Defined.

Lemma cors_origin_precedence_witness :
  Sample.config_without_key (loaded Sample.dotenv_only)
    = (Ok (mkConfig None), loaded Sample.dotenv_only)
  /\ environ (loaded Sample.dotenv_only) = environ (loaded Sample.dotenv_only)
  /\ exists g,
       main Sample.config_without_key Sample.file Sample.dotenv_only
         = (Ok g, loaded Sample.dotenv_only)
       /\ user_middleware (app g)
          = [mkCORS ["https://shop.example"] true ["*"] ["*"]].
Proof.
  split; [reflexivity|]. split; [reflexivity|].
  destruct (cors_origin_precedence
              Sample.config_without_key Sample.file Sample.dotenv_only
              (loaded Sample.dotenv_only) (mkConfig None) eq_refl eq_refl)
    as (g & Hmain & Hcors).
  exists g. split; [exact Hmain|]. exact Hcors.
Defined.

Lemma static_dir_sibling_witness :
  let s := Sample.imported Sample.deployed in
  "/srv/scm/app" <> EmptyString
  /\ Os.endswith_sep "/srv/scm/app" = false
  /\ no_sep "main.py" = true
  /\ static_dir (glob s)
     = (create_app ("/srv/scm/app" +:+ String Os.sep "main.py")
                   Sample.deployed).2
  /\ (create_app ("/srv/scm/app" +:+ String Os.sep "main.py")
                 Sample.deployed).2 = "/srv/scm/app/static".
Proof.
  cbv zeta. split; [discriminate|]. split; [reflexivity|].
  split; [reflexivity|]. split; [reflexivity|].
  assert ("/srv/scm/app" <> EmptyString) as Hdir by discriminate.
  exact (proj1 (static_dir_sibling
                  Sample.deployed "/srv/scm/app" "main.py"
                  (Sample.imported Sample.deployed)
                  Hdir eq_refl eq_refl eq_refl)).
Defined.

Lemma static_dir_relative_witness :
  no_sep "main.py" = true
  /\ (create_app "main.py" Sample.bare).2 = "static".
Proof.
  split; [reflexivity|].
  exact (proj1 (static_dir_relative Sample.bare "main.py" eq_refl)).
Defined.

Lemma metadata_consistent_witness :
  let s := Sample.imported Sample.bare in
  flag s = Some false
  /\ exists d, root s = (Ok (Dict d), s)
               /\ item "version" d
                  = Some (JStr (version (create_app Sample.file Sample.bare).1)).
Proof.
  cbv zeta. split; [reflexivity|].
  destruct (metadata_consistent Sample.file Sample.bare
                                (Sample.imported Sample.bare) false eq_refl)
    as (d & h & Hroot & _ & _ & _ & Hversion & _).
  by exists d.
Defined.
